(** * NDVI service (src/main.py): a shallow embedding

    The service searches a STAC catalogue for the least cloudy Sentinel-2
    scene, reads the red (B04) and near-infrared (B08) windows covering a
    bounding box, computes NDVI with numpy masked arrays, re-derives the
    window's affine transform and serialises the result (PNG or GeoTIFF).

    Modelling conventions.
    - Python and numpy floating-point values are modelled by [flt]: exact
      rationals extended with the two infinities and NaN.  Rounding (and
      the float32 cast) is not modelled, nor is the sign of zero.
    - numpy masked arrays are matrices of [msample]: the data value and the
      mask bit, following numpy.ma's binary operations (the data under a
      masked result is the first operand's data).
    - The catalogue, rasterio/GDAL, pyproj and matplotlib are external:
      they are fields of a [backend] record, quantified over in theorems.
    - Effects are a writer/error monad [M]: a log of remote calls and
      either a Python exception or a value. *)

From Stdlib Require Import QArith Qminmax Qabs Qround List String Bool Arith Lia Lqa.
Import ListNotations.
Open Scope Q_scope.
Set Warnings "-register-all".

(* ------------------------------------------------------------------ *)
(** ** Floating-point values *)

Inductive flt : Type :=
| Fin (q : Q)
| PInf
| NInf
| NaN.

Definition qlt (x y : Q) : bool := negb (Qle_bool y x).

Definition fneg (x : flt) : flt :=
  match x with
  | Fin q => Fin (- q)
  | PInf => NInf
  | NInf => PInf
  | NaN => NaN
  end.

Definition fadd (x y : flt) : flt :=
  match x, y with
  | NaN, _ | _, NaN => NaN
  | Fin a, Fin b => Fin (a + b)
  | PInf, NInf | NInf, PInf => NaN
  | PInf, _ | _, PInf => PInf
  | NInf, _ | _, NInf => NInf
  end.

Definition fsub (x y : flt) : flt := fadd x (fneg y).

(** sign of a non-NaN value: [Some true] positive, [Some false] negative,
    [None] zero *)
Definition fsign (x : flt) : option bool :=
  match x with
  | Fin q => if Qeq_bool q 0 then None else Some (qlt 0 q)
  | PInf => Some true
  | NInf => Some false
  | NaN => None
  end.

Definition inf_of (pos : bool) : flt := if pos then PInf else NInf.

Definition fmul (x y : flt) : flt :=
  match x, y with
  | NaN, _ | _, NaN => NaN
  | Fin a, Fin b => Fin (a * b)
  | _, _ =>
      match fsign x, fsign y with
      | Some sx, Some sy => inf_of (Bool.eqb sx sy)
      | _, _ => NaN
      end
  end.

Definition fdiv (x y : flt) : flt :=
  match x, y with
  | NaN, _ | _, NaN => NaN
  | Fin a, Fin b =>
      if Qeq_bool b 0 then
        (if Qeq_bool a 0 then NaN else inf_of (qlt 0 a))
      else Fin (a / b)
  | Fin _, _ => Fin 0
  | _, Fin b =>
      if Qeq_bool b 0 then x else if qlt 0 b then x else fneg x
  | _, _ => NaN
  end.

(** [==] of IEEE floats: NaN equals nothing *)
Definition feq (x y : flt) : bool :=
  match x, y with
  | Fin a, Fin b => Qeq_bool a b
  | PInf, PInf | NInf, NInf => true
  | _, _ => false
  end.

Definition fis_nan (x : flt) : bool :=
  match x with NaN => true | _ => false end.

(** [np.clip(x, lo, hi)] on one value; NaN stays NaN *)
Definition fclip (lo hi : Q) (x : flt) : flt :=
  match x with
  | Fin q => Fin (Qmin (Qmax q lo) hi)
  | PInf => Fin hi
  | NInf => Fin lo
  | NaN => NaN
  end.

(* ------------------------------------------------------------------ *)
(** ** Python exceptions *)

Inductive exn : Type :=
| HTTPException (status : Z)
| KeyError
| TypeError
| AttributeError
| ValueError
| ZeroDivisionError
| WindowError
| TransformNotInvertibleError
| RemoteError.

Definition res (A : Type) : Type := (exn + A)%type.

(* ------------------------------------------------------------------ *)
(** ** numpy arrays and masked arrays *)

(** A 2-D array: its shape and its elements by (row, column). *)
Record mat (A : Type) : Type := mkMat {
  nrows : nat;
  ncols : nat;
  mget : nat -> nat -> A
}.
Arguments mkMat {A}.
Arguments nrows {A}.
Arguments ncols {A}.
Arguments mget {A}.

Definition mat_map {A B} (f : A -> B) (m : mat A) : mat B :=
  mkMat (nrows m) (ncols m) (fun i j => f (mget m i j)).

(** numpy broadcasting of one dimension *)
Definition bcast_dim (d1 d2 : nat) : option nat :=
  if Nat.eqb d1 d2 then Some d1
  else if Nat.eqb d1 1 then Some d2
  else if Nat.eqb d2 1 then Some d1
  else None.

(** an elementwise binary ufunc on two 2-D arrays, with broadcasting;
    [ValueError] when the shapes cannot be broadcast together *)
Definition bcast2 {A B C} (f : A -> B -> C) (x : mat A) (y : mat B) : res (mat C) :=
  match bcast_dim (nrows x) (nrows y), bcast_dim (ncols x) (ncols y) with
  | Some r, Some c =>
      inr (mkMat r c (fun i j =>
        f (mget x (if Nat.eqb (nrows x) 1 then 0%nat else i)
                  (if Nat.eqb (ncols x) 1 then 0%nat else j))
          (mget y (if Nat.eqb (nrows y) 1 then 0%nat else i)
                  (if Nat.eqb (ncols y) 1 then 0%nat else j))))
  | _, _ => inl ValueError
  end.

(** one sample of a numpy masked array *)
Record msample : Type := mkS {
  mdata : flt;
  mmask : bool
}.

(** [MaskedArray.__itruediv__] by a non-zero scalar: masked entries are
    divided by 1 *)
Definition ma_itruediv (c : Q) (s : msample) : msample :=
  mkS (if mmask s then fdiv (mdata s) (Fin 1) else fdiv (mdata s) (Fin c)) (mmask s).

(** [_MaskedBinaryOperation] (add, subtract): under a mask the result
    holds the first operand's data *)
Definition ma_binop (f : flt -> flt -> flt) (x y : msample) : msample :=
  let m := mmask x || mmask y in
  mkS (if m then mdata x else f (mdata x) (mdata y)) m.

Definition ma_add := ma_binop fadd.
Definition ma_sub := ma_binop fsub.

(** [_DomainSafeDivide]: for float32 operands the tolerance term
    [|a| * finfo(float).tiny] is 0, so the domain is [b == 0] *)
Definition safe_divide_domain (a b : flt) : bool :=
  match a, b with
  | Fin _, Fin q => Qeq_bool q 0
  | _, _ => false
  end.

(** [_DomainedBinaryOperation] (true_divide): masked or out-of-domain
    entries are set to 0, then [m * da] is added to every entry *)
Definition ma_div (x y : msample) : msample :=
  let m := mmask x || mmask y || safe_divide_domain (mdata x) (mdata y) in
  let r := if m then Fin 0 else fdiv (mdata x) (mdata y) in
  mkS (fadd r (fmul (Fin (if m then 1 else 0)) (mdata x))) m.

(** [MaskedArray == scalar]: the data of a masked entry is
    [smask == omask], i.e. False for a masked entry against an unmasked
    scalar *)
Definition ma_eq_scalar (c : Q) (s : msample) : bool :=
  if mmask s then false else feq (mdata s) (Fin c).

(** [np.where(cond, nan, x)]: a plain ndarray built from the data; the
    masks are dropped *)
Definition np_where_nan (cond : bool) (x : msample) : flt :=
  if cond then NaN else mdata x.

(** Lines 124-130 of [_read_bands_ndvi]:
<<
        b4 /= 10000.0
        b8 /= 10000.0
        denom = (b8 + b4)
        ndvi = np.where(denom == 0, np.nan, (b8 - b4) / denom).astype("float32")
>> *)
Definition compute_ndvi (b4 b8 : mat msample) : res (mat flt) :=
  let b4 := mat_map (ma_itruediv 10000) b4 in
  let b8 := mat_map (ma_itruediv 10000) b8 in
  match bcast2 ma_add b8 b4 with
  | inl ex => inl ex
  | inr denom =>
      let cond := mat_map (ma_eq_scalar 0) denom in
      match bcast2 ma_sub b8 b4 with
      | inl ex => inl ex
      | inr num =>
          match bcast2 ma_div num denom with
          | inl ex => inl ex
          | inr q => bcast2 np_where_nan cond q
          end
      end
  end.

(* ------------------------------------------------------------------ *)
(** ** Affine transforms (the [affine] package) and rasterio windows *)

(** [Affine(a, b, c, d, e, f)]: pixel (col, row) |-> (a*col + b*row + c,
    d*col + e*row + f) *)
Record affine : Type := mkAffine {
  sa : Q; sb : Q; sc : Q;
  sd : Q; se : Q; sf : Q
}.

(** [Affine.translation(x, y)] *)
Definition translation (x y : Q) : affine := mkAffine 1 0 x 0 1 y.

(** [Affine.__mul__] with another [Affine]: composition, [self] applied
    last *)
Definition amul (s o : affine) : affine :=
  mkAffine (sa s * sa o + sb s * sd o)
           (sa s * sb o + sb s * se o)
           (sa s * sc o + sb s * sf o + sc s)
           (sd s * sa o + se s * sd o)
           (sd s * sb o + se s * se o)
           (sd s * sc o + se s * sf o + sf s).

(** [Affine.__mul__] with a point [(vx, vy)] *)
Definition aapply (s : affine) (p : Q * Q) : Q * Q :=
  let (vx, vy) := p in
  (vx * sa s + vy * sb s + sc s, vx * sd s + vy * se s + sf s).

(** [Affine.__invert__]; a degenerate transform cannot be inverted *)
Definition ainvert (s : affine) : res affine :=
  let det := sa s * se s - sb s * sd s in
  if Qeq_bool det 0 then inl TransformNotInvertibleError else
  let idet := 1 / det in
  let ra := se s * idet in
  let rb := - sb s * idet in
  let rd := - sd s * idet in
  let re := sa s * idet in
  inr (mkAffine ra rb (- sc s * ra - sf s * rb) rd re (- sc s * rd - sf s * re)).

(** [rasterio.windows.Window] *)
Record window : Type := mkWindow {
  col_off : Q; row_off : Q; wwidth : Q; wheight : Q
}.

(** Python's [x / y] on floats *)
Definition py_div (x y : Q) : res Q :=
  if Qeq_bool y 0 then inl ZeroDivisionError else inr (x / y).

Definition qmin_list (x : Q) (l : list Q) : Q := fold_left Qmin l x.
Definition qmax_list (x : Q) (l : list Q) : Q := fold_left Qmax l x.

(** [rasterio.windows.from_bounds] (rasterio 1.3), with
    [rowcol(..., op=float)]; the [epsilon] nudge of [rowcol] is below
    float resolution for projected coordinates and is not modelled. *)
Definition from_bounds (left bottom right top : Q) (t : affine) : res window :=
  match py_div (right - left) (sa t) with
  | inl ex => inl ex
  | inr q1 =>
  if qlt q1 0 then inl WindowError else
  match py_div (bottom - top) (se t) with
  | inl ex => inl ex
  | inr q2 =>
  if qlt q2 0 then inl WindowError else
  match ainvert t with
  | inl ex => inl ex
  | inr inv =>
      let pts := [(left, top); (right, top); (right, bottom); (left, bottom)] in
      let crs := map (aapply inv) pts in
      let cols := map fst crs in
      let rows := map snd crs in
      let col_start := qmin_list (hd 0 cols) (tl cols) in
      let col_stop := qmax_list (hd 0 cols) (tl cols) in
      let row_start := qmin_list (hd 0 rows) (tl rows) in
      let row_stop := qmax_list (hd 0 rows) (tl rows) in
      inr (mkWindow col_start row_start
                    (Qmax (col_stop - col_start) 0)
                    (Qmax (row_stop - row_start) 0))
  end end end.

(* ------------------------------------------------------------------ *)
(** ** JSON request bodies and Python dictionaries *)

Inductive json : Type :=
| JNull
| JBool (b : bool)
| JNum (q : Q)
| JStr (s : string)
| JArr (l : list json)
| JObj (kv : list (string * json)).

(** dictionary lookup; a dict built from a JSON object keeps the last
    binding of a key *)
Definition dict_lookup {A} (kv : list (string * A)) (k : string) : option A :=
  fold_left (fun acc '(k', v) => if String.eqb k k' then Some v else acc) kv None.

(** truth value of a JSON value in Python *)
Definition truthy (v : json) : bool :=
  match v with
  | JNull => false
  | JBool b => b
  | JNum q => negb (Qeq_bool q 0)
  | JStr s => negb (String.eqb s "")
  | JArr l => match l with [] => false | _ => true end
  | JObj kv => match kv with [] => false | _ => true end
  end.

(** [body.get(k)] *)
Definition py_get (d : json) (k : string) : res json :=
  match d with
  | JObj kv => inr (match dict_lookup kv k with Some v => v | None => JNull end)
  | _ => inl AttributeError
  end.

(** [d[k]] *)
Definition py_getitem (d : json) (k : string) : res json :=
  match d with
  | JObj kv => match dict_lookup kv k with Some v => inr v | None => inl KeyError end
  | _ => inl TypeError
  end.

(* ------------------------------------------------------------------ *)
(** ** STAC items and the external back ends *)

(** a STAC item: its id, band name |-> asset href, and the
    [eo:cloud_cover] property when present *)
Record item : Type := mkItem {
  item_id : string;
  assets : list (string * string);
  cloud_cover : option Q
}.

Definition bbox4 : Type := (Q * Q * Q * Q)%type.

(** an opened raster dataset: CRS, transform and masked windowed reads *)
Record dataset : Type := mkDataset {
  ds_crs : string;
  ds_transform : affine;
  ds_read : window -> res (mat msample)
}.

(** the GeoTIFF creation profile of [_save_geotiff] *)
Record profile : Type := mkProfile {
  p_driver : string;
  p_height : nat;
  p_width : nat;
  p_count : nat;
  p_dtype : string;
  p_crs : string;
  p_transform : affine;
  p_compress : string;
  p_nodata : flt
}.

Definition bytes : Type := list Byte.byte.

Record backend : Type := mkBackend {
  (** [CATALOG.search(collections, bbox, datetime=(start, end),
      query={"eo:cloud_cover": {"lt": limit}}).get_items()] *)
  catalog_search : bbox4 -> json * json -> Q -> res (list item);
  (** [rasterio.open(href)] *)
  rio_open : string -> res dataset;
  (** [Transformer.from_crs("EPSG:4326", crs, always_xy=True).transform] *)
  transform_pt : string -> Q * Q -> Q * Q;
  (** [CRS.to_wkt()] *)
  crs_to_wkt : string -> string;
  (** [float(s)] on a string *)
  parse_float : string -> option Q;
  (** matplotlib rendering of the rescaled array to PNG bytes *)
  render_png : mat flt -> bytes;
  (** GDAL's GeoTIFF writer in a [MemoryFile] *)
  write_gtiff : profile -> mat flt -> bytes
}.

(* ------------------------------------------------------------------ *)
(** ** Effects: remote calls logged, exceptions *)

Inductive event : Type :=
| EvSearch (bb : bbox4) (dt : json * json) (limit : Q)
| EvOpen (href : string)
| EvRead (href : string) (w : window).

Definition M (A : Type) : Type := (list event * res A)%type.

Definition ret {A} (x : A) : M A := ([], inr x).
Definition raise {A} (ex : exn) : M A := ([], inl ex).
Definition lift {A} (r : res A) : M A := ([], r).
Definition bind {A B} (m : M A) (k : A -> M B) : M B :=
  match m with
  | (l, inl ex) => (l, inl ex)
  | (l, inr x) => let (l', r) := k x in (l ++ l', r)
  end.

Notation "x <- m ;; k" := (bind m (fun x => k))
  (at level 61, m at next level, right associativity).
Notation "m ;;; k" := (bind m (fun _ => k))
  (at level 61, right associativity).

Definition tell (ev : event) : M unit := ([ev], inr tt).

(** remote operations of the back end *)
Definition do_search (be : backend) (bb : bbox4) (dt : json * json) (lim : Q)
  : M (list item) :=
  tell (EvSearch bb dt lim) ;;; lift (catalog_search be bb dt lim).

Definition do_open (be : backend) (href : string) : M dataset :=
  tell (EvOpen href) ;;; lift (rio_open be href).

Definition do_read (ds : dataset) (href : string) (w : window) : M (mat msample) :=
  tell (EvRead href w) ;;; lift (ds_read ds w).

(* ------------------------------------------------------------------ *)
(** ** Catalog search: [_search_best_item] *)

(** sort key [it.properties.get("eo:cloud_cover", 1000)] *)
Definition cloud_key (it : item) : Q :=
  match cloud_cover it with Some c => c | None => 1000 end.

(** [list.sort(key=cloud_key)]: a stable sort, modelled as insertion sort
    that places an element after the elements whose key is not larger *)
Fixpoint insert_by_key (x : item) (l : list item) : list item :=
  match l with
  | [] => [x]
  | y :: t => if qlt (cloud_key x) (cloud_key y) then x :: l else y :: insert_by_key x t
  end.

Definition sort_by_key (l : list item) : list item :=
  fold_left (fun acc x => insert_by_key x acc) l [].

(** the inner [_pick(limit_cloud)] *)
Definition pick (be : backend) (bb : bbox4) (dt : json * json) (limit_cloud : Q)
  : M (option item) :=
  items <- do_search be bb dt limit_cloud ;;
  match items with
  | [] => ret None
  | _ => match sort_by_key items with
         | x :: _ => ret (Some x)
         | [] => raise ValueError
         end
  end.

Definition relaxed_cloud : Q := 60.

Definition _search_best_item (be : backend) (bb : bbox4) (start end_ : json)
  (cloud_first : Q) : M (option item) :=
  let dt := (start, end_) in
  it <- pick be bb dt cloud_first ;;
  match it with
  | None => pick be bb dt relaxed_cloud
  | Some _ => ret it
  end.

(* ------------------------------------------------------------------ *)
(** ** Windowed band reader and NDVI: [_read_bands_ndvi] *)

(** [item.assets[band].href] *)
Definition asset_href (it : item) (band : string) : M string :=
  match dict_lookup (assets it) band with
  | Some h => ret h
  | None => raise KeyError
  end.

(** the resampling branch: [if out_res:] computes two scale factors and
    discards them *)
Definition out_res_branch (out_res : option Q) (t : affine) : M unit :=
  match out_res with
  | Some r =>
      if negb (Qeq_bool r 0) then
        scale_x <- lift (py_div r (sa t)) ;;
        scale_y <- lift (py_div r (Qabs (se t))) ;;
        ret tt
      else ret tt
  | None => ret tt
  end.

Definition _read_bands_ndvi (be : backend) (it : item) (bb : bbox4)
  (out_res : option Q) : M (mat flt * affine * string) :=
  let '(west, south, east, north) := bb in
  href4 <- asset_href it "B04" ;;
  href8 <- asset_href it "B08" ;;
  src4 <- do_open be href4 ;;
  let src_crs := ds_crs src4 in
  let src_transform := ds_transform src4 in
  let '(x_min, y_min) := transform_pt be src_crs (west, south) in
  let '(x_max, y_max) := transform_pt be src_crs (east, north) in
  out_res_branch out_res src_transform ;;;
  window <- lift (from_bounds x_min y_min x_max y_max src_transform) ;;
  b4 <- do_read src4 href4 window ;;
  src8 <- do_open be href8 ;;
  b8 <- do_read src8 href8 window ;;
  ndvi <- lift (compute_ndvi b4 b8) ;;
  let transform := amul src_transform (translation (col_off window) (row_off window)) in
  ret (ndvi, transform, crs_to_wkt be src_crs).

(* ------------------------------------------------------------------ *)
(** ** Serialisers *)

Definition _save_geotiff (be : backend) (ndvi : mat flt) (transform : affine)
  (crs_wkt : string) : bytes :=
  let prof := mkProfile "GTiff" (nrows ndvi) (ncols ndvi) 1 "float32" crs_wkt
                        transform "deflate" NaN in
  write_gtiff be prof ndvi.

Definition _png_from_ndvi (be : backend) (ndvi : mat flt) : bytes :=
  let arr := mat_map (fclip (-(2#10)) (8#10)) ndvi in
  let arr := mat_map (fun v => fdiv (fsub v (Fin (-(2#10)))) (Fin ((8#10) - -(2#10)))) arr in
  render_png be arr.

(* ------------------------------------------------------------------ *)
(** ** HTTP endpoints *)

Inductive response : Type :=
| RPng (content : bytes)
| RTiff (content : bytes) (start end_ : json).

(** status code sent by FastAPI: an [HTTPException] carries its status,
    any other exception becomes 500 *)
Definition http_status (r : res response) : Z :=
  match r with
  | inr _ => 200
  | inl (HTTPException c) => c
  | inl _ => 500
  end.

(** Python's [float(v)] *)
Definition py_float (be : backend) (v : json) : res Q :=
  match v with
  | JNum q => inr q
  | JBool b => inr (if b then 1 else 0)
  | JStr s => match parse_float be s with Some q => inr q | None => inl ValueError end
  | _ => inl TypeError
  end.

Definition bbox_float (be : backend) (bbox : json) (k : string) : M Q :=
  v <- lift (py_getitem bbox k) ;; lift (py_float be v).

Definition ndvi (be : backend) (body : json) : M response :=
  bbox <- lift (py_get body "bbox") ;;
  start <- lift (py_get body "startDate") ;;
  end_ <- lift (py_get body "endDate") ;;
  if negb (truthy bbox) || negb (truthy start) || negb (truthy end_) then
    raise (HTTPException 400)
  else
  west <- bbox_float be bbox "west" ;;
  south <- bbox_float be bbox "south" ;;
  east <- bbox_float be bbox "east" ;;
  north <- bbox_float be bbox "north" ;;
  let aoi := (west, south, east, north) in
  it <- _search_best_item be aoi start end_ 20 ;;
  match it with
  | None => raise (HTTPException 404)
  | Some it =>
      r <- _read_bands_ndvi be it aoi None ;;
      let '(nd, transform, crs_wkt) := r in
      let png_bytes := _png_from_ndvi be nd in
      ret (RPng png_bytes)
  end.

Definition ndvi_download (be : backend) (body : json) : M response :=
  bbox <- lift (py_get body "bbox") ;;
  start <- lift (py_get body "startDate") ;;
  end_ <- lift (py_get body "endDate") ;;
  if negb (truthy bbox) || negb (truthy start) || negb (truthy end_) then
    raise (HTTPException 400)
  else
  west <- bbox_float be bbox "west" ;;
  south <- bbox_float be bbox "south" ;;
  east <- bbox_float be bbox "east" ;;
  north <- bbox_float be bbox "north" ;;
  let aoi := (west, south, east, north) in
  it <- _search_best_item be aoi start end_ 20 ;;
  match it with
  | None => raise (HTTPException 404)
  | Some it =>
      r <- _read_bands_ndvi be it aoi None ;;
      let '(nd, transform, crs_wkt) := r in
      let gtiff := _save_geotiff be nd transform crs_wkt in
      ret (RTiff gtiff start end_)
  end.

(* ------------------------------------------------------------------ *)
(** ** Concrete inputs *)

(** a 1x1 masked array *)
Definition single (s : msample) : mat msample := mkMat 1 1 (fun _ _ => s).

(** red band window: one pixel at the nodata value 0, hence masked *)
Definition red_nodata_px : mat msample := single (mkS (Fin 0) true).
(** near-infrared band window: one valid pixel of raw value 3000 *)
Definition nir_valid_px : mat msample := single (mkS (Fin 3000) false).

(** windows of different shapes: 1x1 red, 2x1 near-infrared *)
Definition red_1x1 : mat msample := single (mkS (Fin 1000) false).
Definition nir_2x1 : mat msample := mkMat 2 1 (fun _ _ => mkS (Fin 3000) false).

(** the request body of end-to-end scenario 3: [north] is missing *)
Definition body_missing_north : json :=
  JObj [("bbox"%string, JObj [("west"%string, JNum (387#10)); ("south"%string, JNum 9);
                       ("east"%string, JNum (388#10))]);
        ("startDate"%string, JStr "2024-01-01"%string);
        ("endDate"%string, JStr "2024-03-01"%string)].

(** The claim's reading of the window computation (not the code's):
    reproject all four bounding-box corners and take the window of their
    enclosing box. *)
Definition four_corner_window (be : backend) (crs : string) (t : affine)
  (bb : bbox4) : res window :=
  let '(west, south, east, north) := bb in
  let pts := map (transform_pt be crs)
                 [(west, south); (east, south); (east, north); (west, north)] in
  let xs := map fst pts in
  let ys := map snd pts in
  from_bounds (qmin_list (hd 0 xs) (tl xs)) (qmin_list (hd 0 ys) (tl ys))
              (qmax_list (hd 0 xs) (tl xs)) (qmax_list (hd 0 ys) (tl ys)) t.

(** A small concrete back end.  Its projection shrinks eastings towards
    the north, as a transverse Mercator grid does east of its central
    meridian, so the reprojected box is not spanned by its south-west and
    north-east corners. *)
Definition grid_cx : affine := mkAffine 1 0 0 0 (-1) 1.

Definition window_shape (w : window) : nat * nat :=
  (Z.to_nat (Qceiling (wheight w)), Z.to_nat (Qceiling (wwidth w))).

Definition const_read (v : Q) (w : window) : res (mat msample) :=
  inr (mkMat (fst (window_shape w)) (snd (window_shape w))
             (fun _ _ => mkS (Fin v) false)).

Definition ds_red_cx : dataset := mkDataset "EPSG:32637" grid_cx (const_read 1000).
Definition ds_nir_cx : dataset := mkDataset "EPSG:32637" grid_cx (const_read 3000).

Definition item_cx : item :=
  mkItem "S2A_cx" [("B04"%string, "red.tif"%string); ("B08"%string, "nir.tif"%string)]
         (Some 12).

Definition be_cx : backend :=
  mkBackend
    (fun _ _ lim => if qlt 12 lim then inr [item_cx] else inr [])
    (fun h => if String.eqb h "red.tif" then inr ds_red_cx
              else if String.eqb h "nir.tif" then inr ds_nir_cx
              else inl RemoteError)
    (fun _ p => let (x, y) := p in (x * (2 - y), y))
    (fun c => c)
    (fun _ => None)
    (fun _ => [])
    (fun _ _ => []).

Definition bb_cx : bbox4 := (1, 0, 2, 1).

(** the first item of least key met in a left-to-right scan started at
    [h] (used to describe the head of [sort_by_key]) *)
Definition first_min (h : item) (l : list item) : item :=
  fold_left (fun h x => if qlt (cloud_key x) (cloud_key h) then x else h) l h.

(** a back end whose catalogue finds nothing *)
Definition be_empty : backend :=
  mkBackend (fun _ _ _ => inr []) (rio_open be_cx) (transform_pt be_cx)
            (crs_to_wkt be_cx) (parse_float be_cx) (render_png be_cx)
            (write_gtiff be_cx).

(** a well-formed request body with numeric bbox coordinates *)
Definition mk_body (west south east north : Q) (start end_ : string) : json :=
  JObj [("bbox"%string, JObj [("west"%string, JNum west); ("south"%string, JNum south);
                               ("east"%string, JNum east); ("north"%string, JNum north)]);
        ("startDate"%string, JStr start);
        ("endDate"%string, JStr end_)].

Definition item_cloudy : item := mkItem "S2B_cloudy" [] (Some 15).
Definition item_clear : item := mkItem "S2B_clear" [] (Some 5).
Definition item_clear2 : item := mkItem "S2B_clear2" [] (Some 5).

Definition be_three : backend :=
  mkBackend (fun _ _ _ => inr [item_cloudy; item_clear; item_clear2])
            (rio_open be_cx) (transform_pt be_cx) (crs_to_wkt be_cx)
            (parse_float be_cx) (render_png be_cx) (write_gtiff be_cx).

(** a back end whose catalogue is unreachable *)
Definition be_failing : backend :=
  mkBackend (fun _ _ _ => inl RemoteError) (rio_open be_cx) (transform_pt be_cx)
            (crs_to_wkt be_cx) (parse_float be_cx) (render_png be_cx)
            (write_gtiff be_cx).

(* ------------------------------------------------------------------ *)
(** ** Monad lemmas *)

Lemma bind_inr {A B} (m : M A) (k : A -> M B) L y :
  bind m k = (L, inr y) ->
  exists l1 x l2, m = (l1, inr x) /\ k x = (l2, inr y) /\ L = l1 ++ l2.
Proof.
  unfold bind. destruct m as [l [ex | x]]; [discriminate |].
  destruct (k x) as [l' r] eqn:Hk. intros H. inversion H; subst.
  exists l, x, l'. auto.
Qed.

Ltac inv_bind H :=
  let l1 := fresh "l" in let x := fresh "x" in let l2 := fresh "l" in
  let Hm := fresh "Hm" in let Hk := fresh "Hk" in
  apply bind_inr in H; destruct H as (l1 & x & l2 & Hm & Hk & ->).

(* ------------------------------------------------------------------ *)
(** ** Index compute *)

Lemma bcast_dim_refl n : bcast_dim n n = Some n.
Proof. unfold bcast_dim. now rewrite Nat.eqb_refl. Qed.

(** C7 (amended): [compute_ndvi] performs no shape check of its own: it
    fails with numpy's broadcasting [ValueError] exactly when the two band
    shapes cannot be broadcast together, and otherwise silently returns an
    NDVI array of the broadcast shape. *)
Theorem compute_ndvi_broadcasts (b4 b8 : mat msample) :
  match bcast_dim (nrows b8) (nrows b4), bcast_dim (ncols b8) (ncols b4) with
  | Some r, Some c =>
      exists out, compute_ndvi b4 b8 = inr out /\ nrows out = r /\ ncols out = c
  | _, _ => compute_ndvi b4 b8 = inl ValueError
  end.
Proof.
  unfold compute_ndvi, bcast2, mat_map; simpl.
  destruct (bcast_dim (nrows b8) (nrows b4)) as [r |];
  destruct (bcast_dim (ncols b8) (ncols b4)) as [c |]; try reflexivity.
  simpl. rewrite !bcast_dim_refl. simpl. eexists; split; [reflexivity | auto].
Qed.

(** C7 (counterexample): a 1x1 red window and a 2x1 near-infrared window
    are not rejected: the NDVI is computed at the broadcast shape 2x1. *)
Lemma compute_ndvi_mismatch_not_detected :
  (nrows red_1x1, ncols red_1x1) <> (nrows nir_2x1, ncols nir_2x1) /\
  exists out, compute_ndvi red_1x1 nir_2x1 = inr out /\
              nrows out = 2%nat /\ ncols out = 1%nat.
Proof.
  split; [discriminate |]. eexists. split; [reflexivity | auto].
Qed.

(** C1 (code bug): a red sample masked as nodata next to a valid
    near-infrared sample of 3000 yields the unmasked, finite NDVI value
    0.3 instead of a nodata (NaN) sample: [np.where] drops the masks of
    [b4] and [b8]. *)
Theorem ndvi_masked_input_not_nodata :
  mmask (mget red_nodata_px 0 0) = true /\
  exists out, compute_ndvi red_nodata_px nir_valid_px = inr out /\
              fis_nan (mget out 0 0) = false /\
              feq (mget out 0 0) (Fin (3#10)) = true.
Proof.
  split; [reflexivity |]. eexists. split; [reflexivity |]. vm_compute. auto.
Qed.

(** Where both samples are valid and the denominator is zero, the output
    is NaN, and the GeoTIFF profile declares NaN as its nodata value. *)
Lemma ndvi_zero_denominator_unmasked (x y : Q) :
  x + y == 0 ->
  exists out, compute_ndvi (single (mkS (Fin x) false)) (single (mkS (Fin y) false))
              = inr out /\ mget out 0 0 = NaN.
Proof.
  intros H. eexists. split; [reflexivity |]. simpl.
  unfold np_where_nan, ma_eq_scalar, ma_add, ma_binop, ma_itruediv. simpl.
  replace (Qeq_bool (y / 10000 + x / 10000) 0) with true; [reflexivity |].
  symmetry. apply Qeq_bool_iff. field_simplify. 
  setoid_replace (y + x) with (x + y) by ring. rewrite H. reflexivity.
Qed.

Lemma save_geotiff_declares_nan be nd tr crs :
  exists p, _save_geotiff be nd tr crs = write_gtiff be p nd /\ p_nodata p = NaN.
Proof. eexists. split; reflexivity. Qed.

(* ------------------------------------------------------------------ *)
(** ** Endpoints *)

(** C3 (code bug): for the body of scenario 3 (bbox without [north]) both
    endpoints make no remote call but fail with [KeyError], which FastAPI
    turns into status 500, not the 400 of the "Missing parameters" guard. *)
Theorem missing_north_is_500 (be : backend) :
  ndvi be body_missing_north = ([], inl KeyError) /\
  ndvi_download be body_missing_north = ([], inl KeyError) /\
  http_status (snd (ndvi be body_missing_north)) = 500%Z /\
  http_status (snd (ndvi_download be body_missing_north)) = 500%Z.
Proof. repeat split; reflexivity. Qed.

(* ------------------------------------------------------------------ *)
(** ** Windowed band reader *)

Lemma Qabs_zero (x : Q) : Qabs x == 0 -> x == 0.
Proof.
  apply (Qabs_case x (fun y => y == 0 -> x == 0)); [auto |].
  intros _ H. rewrite <- (Qopp_involutive x), H. reflexivity.
Qed.

(** the dead [out_res] branch either does nothing or raises
    [ZeroDivisionError] on a transform with [a = 0] or [e = 0] *)
Lemma out_res_branch_cases o t :
  out_res_branch o t = ret tt \/
  (out_res_branch o t = raise ZeroDivisionError /\
   (Qeq_bool (sa t) 0 = true \/ Qeq_bool (se t) 0 = true)).
Proof.
  destruct o as [r |]; simpl; [| left; reflexivity].
  destruct (negb (Qeq_bool r 0)); [| left; reflexivity].
  unfold py_div, lift, bind.
  destruct (Qeq_bool (sa t) 0) eqn:Ea; [right; split; auto |].
  destruct (Qeq_bool (Qabs (se t)) 0) eqn:Ee.
  - right. split; [reflexivity |]. right.
    apply Qeq_bool_iff, Qabs_zero, Qeq_bool_iff. exact Ee.
  - left. reflexivity.
Qed.

(** [from_bounds] divides by [a] and by [e]: it fails on such transforms *)
Lemma from_bounds_axis_zero l b r t T :
  Qeq_bool (sa T) 0 = true \/ Qeq_bool (se T) 0 = true ->
  exists ex, from_bounds l b r t T = inl ex.
Proof.
  unfold from_bounds, py_div. intros [H | H].
  - rewrite H. eauto.
  - destruct (Qeq_bool (sa T) 0); [eauto |].
    destruct (qlt ((r - l) / sa T) 0); [eauto |].
    rewrite H. eauto.
Qed.

Lemma read_bands_out_res_cases be it bb o :
  _read_bands_ndvi be it bb o = _read_bands_ndvi be it bb None \/
  exists l ex1 ex2, _read_bands_ndvi be it bb o = (l, inl ex1) /\
                    _read_bands_ndvi be it bb None = (l, inl ex2).
Proof.
  destruct bb as [[[west south] east] north].
  unfold _read_bands_ndvi, asset_href.
  destruct (dict_lookup (assets it) "B04") as [h4 |]; [| left; reflexivity].
  destruct (dict_lookup (assets it) "B08") as [h8 |]; [| left; reflexivity].
  unfold do_open, tell, lift. simpl.
  destruct (rio_open be h4) as [ex | ds4]; [left; reflexivity |]. simpl.
  destruct (transform_pt be (ds_crs ds4) (west, south)) as [x_min y_min].
  destruct (transform_pt be (ds_crs ds4) (east, north)) as [x_max y_max].
  destruct (out_res_branch_cases o (ds_transform ds4)) as [E | [E Hz]].
  - left. rewrite E. reflexivity.
  - right. rewrite E.
    destruct (from_bounds_axis_zero x_min y_min x_max y_max _ Hz) as [ex Hf].
    simpl. rewrite Hf. simpl. eauto.
Qed.

(** a successful run of [_read_bands_ndvi]: its remote calls, its window
    and its result *)
Lemma read_bands_success be it west south east north o L v :
  _read_bands_ndvi be it (west, south, east, north) o = (L, inr v) ->
  exists h4 h8 ds4 w nd,
    dict_lookup (assets it) "B04" = Some h4 /\
    dict_lookup (assets it) "B08" = Some h8 /\
    rio_open be h4 = inr ds4 /\
    from_bounds (fst (transform_pt be (ds_crs ds4) (west, south)))
                (snd (transform_pt be (ds_crs ds4) (west, south)))
                (fst (transform_pt be (ds_crs ds4) (east, north)))
                (snd (transform_pt be (ds_crs ds4) (east, north)))
                (ds_transform ds4) = inr w /\
    L = [EvOpen h4; EvRead h4 w; EvOpen h8; EvRead h8 w] /\
    v = (nd, amul (ds_transform ds4) (translation (col_off w) (row_off w)),
         crs_to_wkt be (ds_crs ds4)).
Proof.
  unfold _read_bands_ndvi, asset_href. intros H.
  destruct (dict_lookup (assets it) "B04") as [h4 |] eqn:E4; [| discriminate].
  destruct (dict_lookup (assets it) "B08") as [h8 |] eqn:E8; [| discriminate].
  unfold do_open, do_read, tell, lift in H. simpl in H.
  destruct (rio_open be h4) as [ex | ds4] eqn:Eo4; [discriminate |]. simpl in H.
  destruct (transform_pt be (ds_crs ds4) (west, south)) as [x_min y_min] eqn:Esw.
  destruct (transform_pt be (ds_crs ds4) (east, north)) as [x_max y_max] eqn:Ene.
  destruct (out_res_branch_cases o (ds_transform ds4)) as [E | [E _]];
    rewrite E in H; [| discriminate]. simpl in H.
  destruct (from_bounds x_min y_min x_max y_max (ds_transform ds4)) as [ex | w] eqn:Ew;
    [discriminate |]. simpl in H.
  destruct (ds_read ds4 w) as [ex | b4]; [discriminate |]. simpl in H.
  destruct (rio_open be h8) as [ex | ds8]; [discriminate |]. simpl in H.
  destruct (ds_read ds8 w) as [ex | b8]; [discriminate |]. simpl in H.
  destruct (compute_ndvi b4 b8) as [ex | nd]; [discriminate |]. simpl in H.
  inversion H; subst. exists h4, h8, ds4, w, nd.
  rewrite Esw, Ene. simpl. repeat split; assumption.
Qed.

(** C9: the [out_res] argument does not change the result of
    [_read_bands_ndvi]: the same remote calls are made, and a result
    (NDVI, transform, CRS) is returned for [out_res] exactly when the
    same result is returned for [None].  (On a grid with [a = 0] or
    [e = 0] both calls raise, possibly different exceptions.) *)
Theorem read_bands_ignores_out_res be it bb out_res :
  fst (_read_bands_ndvi be it bb out_res) = fst (_read_bands_ndvi be it bb None) /\
  (forall v, snd (_read_bands_ndvi be it bb out_res) = inr v <->
             snd (_read_bands_ndvi be it bb None) = inr v).
Proof.
  destruct (read_bands_out_res_cases be it bb out_res) as [E | (l & ex1 & ex2 & E1 & E2)].
  - rewrite E. split; [reflexivity | tauto].
  - rewrite E1, E2. split; [reflexivity |]. intros v; split; discriminate.
Qed.

(** C2: the transform returned with the NDVI window is the source
    transform composed with the pixel translation by the window's
    (col_off, row_off); the windowed pixel (x, y) maps to the source
    pixel (x + col_off, y + row_off), in particular (0, 0) maps to the
    source pixel (col_off, row_off). *)
Theorem read_bands_transform_translates be it bb out_res L nd tr crs :
  _read_bands_ndvi be it bb out_res = (L, inr (nd, tr, crs)) ->
  exists h4 ds4 w,
    dict_lookup (assets it) "B04" = Some h4 /\
    rio_open be h4 = inr ds4 /\
    In (EvRead h4 w) L /\
    tr = amul (ds_transform ds4) (translation (col_off w) (row_off w)) /\
    (forall x y,
        fst (aapply tr (x, y)) == fst (aapply (ds_transform ds4) (x + col_off w, y + row_off w)) /\
        snd (aapply tr (x, y)) == snd (aapply (ds_transform ds4) (x + col_off w, y + row_off w))) /\
    fst (aapply tr (0, 0)) == fst (aapply (ds_transform ds4) (col_off w, row_off w)) /\
    snd (aapply tr (0, 0)) == snd (aapply (ds_transform ds4) (col_off w, row_off w)).
Proof.
  destruct bb as [[[west south] east] north]. intros H.
  apply read_bands_success in H.
  destruct H as (h4 & h8 & ds4 & w & nd' & E4 & E8 & Eo & Ew & -> & Ev).
  inversion Ev; subst. exists h4, ds4, w.
  split; [assumption |]. split; [assumption |]. split; [simpl; auto |].
  split; [reflexivity |].
  unfold aapply, amul, translation; simpl. repeat split; intros; ring.
Qed.

Lemma read_bands_transform_translates_witness :
  exists L nd tr crs,
    _read_bands_ndvi be_cx item_cx bb_cx None = (L, inr (nd, tr, crs)) /\
    exists h4 ds4 w,
      dict_lookup (assets item_cx) "B04" = Some h4 /\
      rio_open be_cx h4 = inr ds4 /\
      In (EvRead h4 w) L /\
      tr = amul (ds_transform ds4) (translation (col_off w) (row_off w)) /\
      (forall x y,
          fst (aapply tr (x, y)) == fst (aapply (ds_transform ds4) (x + col_off w, y + row_off w)) /\
          snd (aapply tr (x, y)) == snd (aapply (ds_transform ds4) (x + col_off w, y + row_off w))) /\
      fst (aapply tr (0, 0)) == fst (aapply (ds_transform ds4) (col_off w, row_off w)) /\
      snd (aapply tr (0, 0)) == snd (aapply (ds_transform ds4) (col_off w, row_off w)).
Proof.
  destruct (_read_bands_ndvi be_cx item_cx bb_cx None) as [L [ex | [[nd tr] crs]]] eqn:E.
  - vm_compute in E. discriminate.
  - exists L, nd, tr, crs. split; [reflexivity |].
    exact (read_bands_transform_translates be_cx item_cx bb_cx None L nd tr crs E).
Defined.

(** C4 (counterexample): on the concrete back end the code reads the
    window spanned by the reprojected south-west and north-east corners,
    of width 0, while the window covering all four reprojected corners
    has width 3. *)
Lemma read_window_not_four_corner :
  exists w ws,
    fst (_read_bands_ndvi be_cx item_cx bb_cx None) =
      [EvOpen "red.tif"; EvRead "red.tif" w; EvOpen "nir.tif"; EvRead "nir.tif" w] /\
    four_corner_window be_cx (ds_crs ds_red_cx) (ds_transform ds_red_cx) bb_cx = inr ws /\
    wwidth w == 0 /\ wwidth ws == 3.
Proof.
  eexists. eexists. split; [vm_compute; reflexivity |].
  split; [vm_compute; reflexivity |]. split; vm_compute; reflexivity.
Qed.

(** C4 (amended): [_read_bands_ndvi] reprojects only the (west, south)
    and (east, north) corners into the CRS of the B04 asset, takes
    [from_bounds] of the two reprojected points over the native transform
    (a fractional window), and reads that same window from B04 and from
    B08: a successful run makes exactly these remote calls. *)
Theorem read_bands_two_corner_window be it west south east north out_res L v :
  _read_bands_ndvi be it (west, south, east, north) out_res = (L, inr v) ->
  exists h4 h8 ds4 w,
    dict_lookup (assets it) "B04" = Some h4 /\
    dict_lookup (assets it) "B08" = Some h8 /\
    rio_open be h4 = inr ds4 /\
    from_bounds (fst (transform_pt be (ds_crs ds4) (west, south)))
                (snd (transform_pt be (ds_crs ds4) (west, south)))
                (fst (transform_pt be (ds_crs ds4) (east, north)))
                (snd (transform_pt be (ds_crs ds4) (east, north)))
                (ds_transform ds4) = inr w /\
    L = [EvOpen h4; EvRead h4 w; EvOpen h8; EvRead h8 w].
Proof.
  intros H. apply read_bands_success in H.
  destruct H as (h4 & h8 & ds4 & w & nd & E4 & E8 & Eo & Ew & EL & _).
  exists h4, h8, ds4, w. auto.
Qed.

Lemma read_bands_two_corner_window_witness :
  exists L v,
    _read_bands_ndvi be_cx item_cx (1, 0, 2, 1) None = (L, inr v) /\
    exists h4 h8 ds4 w,
      dict_lookup (assets item_cx) "B04" = Some h4 /\
      dict_lookup (assets item_cx) "B08" = Some h8 /\
      rio_open be_cx h4 = inr ds4 /\
      from_bounds (fst (transform_pt be_cx (ds_crs ds4) (1, 0)))
                  (snd (transform_pt be_cx (ds_crs ds4) (1, 0)))
                  (fst (transform_pt be_cx (ds_crs ds4) (2, 1)))
                  (snd (transform_pt be_cx (ds_crs ds4) (2, 1)))
                  (ds_transform ds4) = inr w /\
      L = [EvOpen h4; EvRead h4 w; EvOpen h8; EvRead h8 w].
Proof.
  destruct (_read_bands_ndvi be_cx item_cx (1, 0, 2, 1) None) as [L [ex | v]] eqn:E.
  - vm_compute in E. discriminate.
  - exists L, v. split; [reflexivity |].
    exact (read_bands_two_corner_window be_cx item_cx 1 0 2 1 None L v E).
Defined.

(* ------------------------------------------------------------------ *)
(** ** Catalog search *)

Lemma insert_by_key_in x y l : In y (insert_by_key x l) <-> y = x \/ In y l.
Proof.
  induction l as [| z t IH]; simpl; [intuition congruence |].
  destruct (qlt (cloud_key x) (cloud_key z)); simpl; [intuition congruence |].
  rewrite IH. intuition congruence.
Qed.

Lemma sort_by_key_in l y : In y (sort_by_key l) <-> In y l.
Proof.
  unfold sort_by_key.
  assert (G : forall acc, In y (fold_left (fun acc x => insert_by_key x acc) l acc)
                          <-> In y acc \/ In y l).
  { induction l as [| x t IH]; intros acc; simpl; [tauto |].
    rewrite IH, insert_by_key_in. intuition congruence. }
  rewrite G. simpl. tauto.
Qed.

(** one catalog query: its log, and where its result comes from *)
Lemma pick_cases be bb dt lim :
  fst (pick be bb dt lim) = [EvSearch bb dt lim] /\
  (snd (pick be bb dt lim) = inr None <-> catalog_search be bb dt lim = inr []) /\
  (forall it, snd (pick be bb dt lim) = inr (Some it) ->
     exists items, catalog_search be bb dt lim = inr items /\ items <> [] /\ In it items) /\
  (forall items, catalog_search be bb dt lim = inr items -> items <> [] ->
     exists it, pick be bb dt lim = ([EvSearch bb dt lim], inr (Some it)) /\ In it items).
Proof.
  unfold pick, do_search, tell, lift. simpl.
  destruct (catalog_search be bb dt lim) as [ex | items] eqn:E; simpl.
  - repeat split; try discriminate; intros; discriminate.
  - destruct items as [| i0 rest] eqn:Ei; simpl.
    + repeat split; try discriminate; intros; try discriminate.
      congruence.
    + assert (Hin : forall y, In y (sort_by_key (i0 :: rest)) <-> In y (i0 :: rest))
        by apply sort_by_key_in.
      destruct (sort_by_key (i0 :: rest)) as [| x xs] eqn:Es.
      * exfalso. apply (proj2 (Hin i0)). left; reflexivity.
      * simpl. repeat split; try discriminate.
        -- intros it Hit. inversion Hit; subst. exists (i0 :: rest).
           split; [reflexivity |]. split; [discriminate |].
           apply Hin. left; reflexivity.
        -- intros its Hc _. inversion Hc; subst. exists x.
           split; [reflexivity |]. apply Hin. left; reflexivity.
Qed.

(** the catalogue honours the [eo:cloud_cover < limit] filter *)
Definition honors_cloud_filter (be : backend) : Prop :=
  forall bb dt lim items it,
    catalog_search be bb dt lim = inr items -> In it items ->
    exists c, cloud_cover it = Some c /\ c < lim.

(** C5: when the catalogue honours the cloud filter, a scene returned by
    [_search_best_item] has cloud cover strictly below the threshold in
    effect: [cloud_first] when the primary query found scenes, the
    relaxed 60 when it found none. *)
Theorem search_best_item_below_threshold be bb start end_ cloud_first it :
  honors_cloud_filter be ->
  snd (_search_best_item be bb start end_ cloud_first) = inr (Some it) ->
  exists c, cloud_cover it = Some c /\
    ((exists items, catalog_search be bb (start, end_) cloud_first = inr items /\
                    items <> [] /\ c < cloud_first) \/
     (catalog_search be bb (start, end_) cloud_first = inr [] /\ c < relaxed_cloud)).
Proof.
  intros Hf. unfold _search_best_item.
  destruct (pick_cases be bb (start, end_) cloud_first) as (_ & Hnone & Hsome & _).
  destruct (pick_cases be bb (start, end_) relaxed_cloud) as (_ & _ & Hsome2 & _).
  destruct (pick be bb (start, end_) cloud_first) as [l [ex | [x |]]] eqn:E;
    simpl in *; [discriminate | |].
  - intros H. inversion H; subst.
    destruct (Hsome it eq_refl) as (items & Hc & Hne & Hin).
    destruct (Hf _ _ _ _ _ Hc Hin) as (c & Hcc & Hlt).
    exists c. split; [assumption |]. left. exists items. auto.
  - destruct (pick be bb (start, end_) relaxed_cloud) as [l2 r2] eqn:E2. simpl.
    intros H. subst r2.
    destruct (Hsome2 it eq_refl) as (items & Hc & Hne & Hin).
    destruct (Hf _ _ _ _ _ Hc Hin) as (c & Hcc & Hlt).
    exists c. split; [assumption |]. right. split; [apply Hnone; reflexivity | assumption].
Qed.

Lemma be_cx_honors_cloud_filter : honors_cloud_filter be_cx.
Proof.
  intros bb dt lim items it. simpl.
  destruct (qlt 12 lim) eqn:Hq; intros H; inversion H; subst; simpl; [| tauto].
  intros [<- | []]. exists 12. split; [reflexivity |].
  unfold qlt in Hq. apply negb_true_iff in Hq.
  apply Qnot_le_lt. intros Hle. apply Qle_bool_iff in Hle. congruence.
Qed.

Lemma search_best_item_below_threshold_witness :
  honors_cloud_filter be_cx /\
  snd (_search_best_item be_cx bb_cx (JStr "2024-01-01") (JStr "2024-03-01") 20)
    = inr (Some item_cx) /\
  exists c, cloud_cover item_cx = Some c /\
    ((exists items, catalog_search be_cx bb_cx (JStr "2024-01-01", JStr "2024-03-01") 20
                    = inr items /\ items <> [] /\ c < 20) \/
     (catalog_search be_cx bb_cx (JStr "2024-01-01", JStr "2024-03-01") 20 = inr [] /\
      c < relaxed_cloud)).
Proof.
  split; [exact be_cx_honors_cloud_filter |].
  assert (E : snd (_search_best_item be_cx bb_cx (JStr "2024-01-01") (JStr "2024-03-01") 20)
              = inr (Some item_cx)) by (vm_compute; reflexivity).
  split; [exact E |].
  exact (search_best_item_below_threshold be_cx bb_cx _ _ 20 item_cx
           be_cx_honors_cloud_filter E).
Defined.

(** C6: when the primary query returns at least one scene, the relaxed
    query is never issued (the only remote call is the primary search)
    and the scene returned is one of the primary results. *)
Theorem search_prefers_primary be bb start end_ cloud_first items :
  catalog_search be bb (start, end_) cloud_first = inr items -> items <> [] ->
  exists it,
    _search_best_item be bb start end_ cloud_first =
      ([EvSearch bb (start, end_) cloud_first], inr (Some it)) /\ In it items.
Proof.
  intros Hc Hne. unfold _search_best_item.
  destruct (pick_cases be bb (start, end_) cloud_first) as (_ & _ & _ & Hp).
  destruct (Hp items Hc Hne) as (it & E & Hin).
  exists it. rewrite E. simpl. split; [reflexivity | assumption].
Qed.

Lemma search_prefers_primary_witness :
  catalog_search be_cx bb_cx (JStr "2024-01-01", JStr "2024-03-01") 20 = inr [item_cx] /\
  [item_cx] <> [] /\
  exists it,
    _search_best_item be_cx bb_cx (JStr "2024-01-01") (JStr "2024-03-01") 20 =
      ([EvSearch bb_cx (JStr "2024-01-01", JStr "2024-03-01") 20], inr (Some it)) /\
    In it [item_cx].
Proof.
  assert (Hc : catalog_search be_cx bb_cx (JStr "2024-01-01", JStr "2024-03-01") 20
               = inr [item_cx]) by (vm_compute; reflexivity).
  assert (Hne : [item_cx] <> []) by discriminate.
  split; [exact Hc |]. split; [exact Hne |].
  exact (search_prefers_primary be_cx bb_cx _ _ 20 [item_cx] Hc Hne).
Defined.

(* ------------------------------------------------------------------ *)
(** ** The two NDVI endpoints *)

(** C10: on the same request body and the same back-end answers, POST
    /ndvi and POST /ndvi/download make the same remote calls and either
    fail with the same exception, or select the same scene and obtain the
    same (NDVI, transform, CRS) from [_read_bands_ndvi]; they differ only
    in the serialisation of that result (PNG preview or GeoTIFF). *)
Theorem ndvi_endpoints_same_pipeline be body :
  fst (ndvi be body) = fst (ndvi_download be body) /\
  ((exists ex, snd (ndvi be body) = inl ex /\ snd (ndvi_download be body) = inl ex) \/
   (exists aoi start end_ it nd tr crs,
      snd (_search_best_item be aoi start end_ 20) = inr (Some it) /\
      snd (_read_bands_ndvi be it aoi None) = inr (nd, tr, crs) /\
      snd (ndvi be body) = inr (RPng (_png_from_ndvi be nd)) /\
      snd (ndvi_download be body) = inr (RTiff (_save_geotiff be nd tr crs) start end_))).
Proof.
  unfold ndvi, ndvi_download, lift.
  destruct (py_get body "bbox") as [ex | bbox]; [cbn -[_search_best_item _read_bands_ndvi]; eauto |].
  destruct (py_get body "startDate") as [ex | start]; [cbn -[_search_best_item _read_bands_ndvi]; eauto |].
  destruct (py_get body "endDate") as [ex | end_]; [cbn -[_search_best_item _read_bands_ndvi]; eauto |].
  cbn -[_search_best_item _read_bands_ndvi].
  destruct (negb (truthy bbox) || negb (truthy start) || negb (truthy end_));
    [cbn -[_search_best_item _read_bands_ndvi]; eauto |].
  unfold bbox_float, lift. cbn -[_search_best_item _read_bands_ndvi].
  destruct (py_getitem bbox "west") as [ex | v1]; [cbn -[_search_best_item _read_bands_ndvi]; eauto |]. cbn -[_search_best_item _read_bands_ndvi].
  destruct (py_float be v1) as [ex | west]; [cbn -[_search_best_item _read_bands_ndvi]; eauto |]. cbn -[_search_best_item _read_bands_ndvi].
  destruct (py_getitem bbox "south") as [ex | v2]; [cbn -[_search_best_item _read_bands_ndvi]; eauto |]. cbn -[_search_best_item _read_bands_ndvi].
  destruct (py_float be v2) as [ex | south]; [cbn -[_search_best_item _read_bands_ndvi]; eauto |]. cbn -[_search_best_item _read_bands_ndvi].
  destruct (py_getitem bbox "east") as [ex | v3]; [cbn -[_search_best_item _read_bands_ndvi]; eauto |]. cbn -[_search_best_item _read_bands_ndvi].
  destruct (py_float be v3) as [ex | east]; [cbn -[_search_best_item _read_bands_ndvi]; eauto |]. cbn -[_search_best_item _read_bands_ndvi].
  destruct (py_getitem bbox "north") as [ex | v4]; [cbn -[_search_best_item _read_bands_ndvi]; eauto |]. cbn -[_search_best_item _read_bands_ndvi].
  destruct (py_float be v4) as [ex | north]; [cbn -[_search_best_item _read_bands_ndvi]; eauto |]. cbn -[_search_best_item _read_bands_ndvi].
  destruct (_search_best_item be (west, south, east, north) start end_ 20)
    as [l1 [ex | [it |]]] eqn:Es; cbn -[_search_best_item _read_bands_ndvi]; [eauto | | eauto].
  destruct (_read_bands_ndvi be it (west, south, east, north) None)
    as [l2 [ex | [[nd tr] crs]]] eqn:Er; cbn -[_search_best_item _read_bands_ndvi]; [eauto |].
  split; [reflexivity |]. right.
  exists (west, south, east, north), start, end_, it, nd, tr, crs.
  rewrite Es, Er. auto.
Qed.

(* ------------------------------------------------------------------ *)
(** ** Further properties of the catalogue search *)

Lemma qlt_true x y : qlt x y = true <-> x < y.
Proof.
  unfold qlt. rewrite negb_true_iff. split.
  - intros H. apply Qnot_le_lt. intros Hle. apply Qle_bool_iff in Hle. congruence.
  - intros H. destruct (Qle_bool y x) eqn:E; [| reflexivity].
    apply Qle_bool_iff in E. exfalso. apply (Qlt_not_le x y); assumption.
Qed.

Lemma qlt_false x y : qlt x y = false <-> y <= x.
Proof.
  unfold qlt. rewrite negb_false_iff. apply Qle_bool_iff.
Qed.

Lemma insert_by_key_head x h rest :
  exists t, insert_by_key x (h :: rest) =
            (if qlt (cloud_key x) (cloud_key h) then x else h) :: t.
Proof. simpl. destruct (qlt (cloud_key x) (cloud_key h)); eauto. Qed.

Lemma sort_by_key_head h l :
  exists t, sort_by_key (h :: l) = first_min h l :: t.
Proof.
  unfold sort_by_key, first_min. simpl.
  assert (G : forall acc h0 r, acc = h0 :: r ->
            exists t, fold_left (fun acc x => insert_by_key x acc) l acc =
                      fold_left (fun h x => if qlt (cloud_key x) (cloud_key h) then x else h)
                                l h0 :: t).
  { induction l as [| x l IH]; intros acc h0 r ->; simpl; [eauto |].
    destruct (insert_by_key_head x h0 r) as [t Ht].
    exact (IH _ _ _ Ht). }
  exact (G [h] h [] eq_refl).
Qed.

(** [first_min] splits the scanned list around the least key: every item
    before it has a strictly larger key, every item after a key not
    smaller *)
Lemma first_min_split h l :
  exists pre post, h :: l = pre ++ first_min h l :: post /\
    (forall z, In z pre -> cloud_key (first_min h l) < cloud_key z) /\
    (forall z, In z post -> cloud_key (first_min h l) <= cloud_key z).
Proof.
  revert h. induction l as [| x t IH]; intros h.
  - exists [], []. simpl. split; [reflexivity |]. split; intros z [].
  - unfold first_min in *. simpl.
    set (y := fold_left _ t _).
    destruct (qlt (cloud_key x) (cloud_key h)) eqn:Hxh.
    + apply qlt_true in Hxh.
      destruct (IH x) as (pre & post & Heq & Hpre & Hpost). fold y in Heq, Hpre, Hpost.
      assert (Hyx : cloud_key y <= cloud_key x).
      { destruct pre as [| p pre']; simpl in Heq; injection Heq as Hh Ht.
        - rewrite Hh. apply Qle_refl.
        - rewrite Hh. apply Qlt_le_weak, Hpre. left; reflexivity. }
      exists (h :: pre), post. split; [rewrite Heq; reflexivity |]. split; [| exact Hpost].
      intros z [<- | Hz]; [apply (Qle_lt_trans _ _ _ Hyx Hxh) | apply Hpre, Hz].
    + apply qlt_false in Hxh.
      destruct (IH h) as (pre & post & Heq & Hpre & Hpost). fold y in Heq, Hpre, Hpost.
      destruct pre as [| p pre'].
      * simpl in Heq. injection Heq as Hh Ht.
        exists [], (x :: post). simpl. split; [rewrite Ht, Hh; reflexivity |].
        split; [intros z [] |].
        intros z [<- | Hz]; [rewrite <- Hh; exact Hxh | apply Hpost, Hz].
      * simpl in Heq. injection Heq as Hh Ht.
        assert (Hyh : cloud_key y < cloud_key p) by (apply Hpre; left; reflexivity).
        exists (p :: x :: pre'), post. simpl. split; [rewrite Ht, Hh; reflexivity |].
        split; [| exact Hpost].
        intros z [<- | [<- | Hz]].
        -- exact Hyh.
        -- rewrite Hh in Hxh. apply (Qlt_le_trans _ _ _ Hyh Hxh).
        -- apply Hpre. right; exact Hz.
Qed.

(** X1: one catalogue query ([_pick]) returns the least cloudy scene of
    the query's results, ties going to the first in catalogue order:
    every earlier result is strictly cloudier, every later one at least
    as cloudy (a scene without [eo:cloud_cover] counts as 1000). *)
Theorem pick_least_cloudy_first be bb dt lim items it :
  catalog_search be bb dt lim = inr items ->
  snd (pick be bb dt lim) = inr (Some it) ->
  exists pre post, items = pre ++ it :: post /\
    (forall z, In z pre -> cloud_key it < cloud_key z) /\
    (forall z, In z post -> cloud_key it <= cloud_key z).
Proof.
  intros Hc. unfold pick, do_search, tell, lift. rewrite Hc. simpl.
  destruct items as [| h l]; simpl; [discriminate |].
  destruct (sort_by_key_head h l) as [t Ht]. rewrite Ht. simpl.
  intros E. inversion E; subst. apply first_min_split.
Qed.


Lemma pick_least_cloudy_first_witness :
  catalog_search be_three bb_cx (JNull, JNull) 20 = inr [item_cloudy; item_clear; item_clear2] /\
  snd (pick be_three bb_cx (JNull, JNull) 20) = inr (Some item_clear) /\
  exists pre post, [item_cloudy; item_clear; item_clear2] = pre ++ item_clear :: post /\
    (forall z, In z pre -> cloud_key item_clear < cloud_key z) /\
    (forall z, In z post -> cloud_key item_clear <= cloud_key z).
Proof.
  assert (Hc : catalog_search be_three bb_cx (JNull, JNull) 20
               = inr [item_cloudy; item_clear; item_clear2]) by reflexivity.
  assert (Hp : snd (pick be_three bb_cx (JNull, JNull) 20) = inr (Some item_clear))
    by (vm_compute; reflexivity).
  split; [exact Hc |]. split; [exact Hp |].
  exact (pick_least_cloudy_first be_three bb_cx (JNull, JNull) 20 _ item_clear Hc Hp).
Defined.

(** X2: when the primary query finds no scene, [_search_best_item]
    issues exactly one more query, at the relaxed threshold 60, and
    returns [None] when that one is empty too, and otherwise one of its
    scenes. *)
Theorem search_relaxes_when_primary_empty be bb start end_ cloud_first items :
  catalog_search be bb (start, end_) cloud_first = inr [] ->
  catalog_search be bb (start, end_) relaxed_cloud = inr items ->
  fst (_search_best_item be bb start end_ cloud_first) =
    [EvSearch bb (start, end_) cloud_first; EvSearch bb (start, end_) relaxed_cloud] /\
  (items = [] -> snd (_search_best_item be bb start end_ cloud_first) = inr None) /\
  (items <> [] -> exists it,
     snd (_search_best_item be bb start end_ cloud_first) = inr (Some it) /\ In it items).
Proof.
  intros H1 H2. unfold _search_best_item.
  destruct (pick_cases be bb (start, end_) cloud_first) as (Hl1 & Hn1 & _ & _).
  destruct (pick_cases be bb (start, end_) relaxed_cloud) as (Hl2 & Hn2 & _ & Hs2).
  destruct (pick be bb (start, end_) cloud_first) as [l1 r1] eqn:E1. simpl in Hl1, Hn1.
  apply Hn1 in H1. subst l1 r1. simpl.
  destruct (pick be bb (start, end_) relaxed_cloud) as [l2 r2] eqn:E2. simpl in *.
  subst l2. split; [reflexivity |]. split.
  - intros ->. apply Hn2. exact H2.
  - intros Hne. destruct (Hs2 items H2 Hne) as (it & E & Hin).
    inversion E; subst. eauto.
Qed.

Lemma search_relaxes_when_primary_empty_witness :
  catalog_search be_empty bb_cx (JNull, JNull) 20 = inr [] /\
  catalog_search be_empty bb_cx (JNull, JNull) relaxed_cloud = inr [] /\
  fst (_search_best_item be_empty bb_cx JNull JNull 20) =
    [EvSearch bb_cx (JNull, JNull) 20; EvSearch bb_cx (JNull, JNull) relaxed_cloud] /\
  snd (_search_best_item be_empty bb_cx JNull JNull 20) = inr None.
Proof.
  assert (H1 : catalog_search be_empty bb_cx (JNull, JNull) 20 = inr []) by reflexivity.
  assert (H2 : catalog_search be_empty bb_cx (JNull, JNull) relaxed_cloud = inr [])
    by reflexivity.
  destruct (search_relaxes_when_primary_empty be_empty bb_cx JNull JNull 20 [] H1 H2)
    as (Hl & Hn & _).
  split; [exact H1 |]. split; [exact H2 |]. split; [exact Hl | exact (Hn eq_refl)].
Defined.

(** X3: a failing primary catalogue query is not masked as "no scene":
    its error is propagated and the relaxed query is never issued. *)
Theorem search_error_propagates be bb start end_ cloud_first ex :
  catalog_search be bb (start, end_) cloud_first = inl ex ->
  _search_best_item be bb start end_ cloud_first =
    ([EvSearch bb (start, end_) cloud_first], inl ex).
Proof.
  intros H. unfold _search_best_item, pick, do_search, tell, lift. simpl.
  rewrite H. reflexivity.
Qed.

Lemma search_error_propagates_witness :
  catalog_search be_failing bb_cx (JNull, JNull) 20 = inl RemoteError /\
  _search_best_item be_failing bb_cx JNull JNull 20 =
    ([EvSearch bb_cx (JNull, JNull) 20], inl RemoteError).
Proof.
  assert (H : catalog_search be_failing bb_cx (JNull, JNull) 20 = inl RemoteError)
    by reflexivity.
  split; [exact H | exact (search_error_propagates be_failing bb_cx JNull JNull 20 _ H)].
Defined.

(* ------------------------------------------------------------------ *)
(** ** Further properties of the index computation *)

Lemma bcast_idx n i : (i < n)%nat -> (if Nat.eqb n 1 then 0%nat else i) = i.
Proof.
  intros H. destruct (Nat.eqb n 1) eqn:E; [| reflexivity].
  apply Nat.eqb_eq in E. lia.
Qed.

Lemma bcast2_same_shape {A B C} (f : A -> B -> C) x y :
  nrows x = nrows y -> ncols x = ncols y ->
  exists z, bcast2 f x y = inr z /\ nrows z = nrows x /\ ncols z = ncols x /\
    forall i j, (i < nrows x)%nat -> (j < ncols x)%nat ->
                mget z i j = f (mget x i j) (mget y i j).
Proof.
  intros Hr Hc. unfold bcast2. rewrite <- Hr, <- Hc, !bcast_dim_refl.
  eexists. split; [reflexivity |]. simpl. repeat split.
  intros i j Hi Hj. rewrite (bcast_idx _ _ Hi), (bcast_idx _ _ Hj). reflexivity.
Qed.



(** ** Rendering *)

Lemma png_pixel_fin (x : Q) :
  exists q, fdiv (fsub (fclip (-(2#10)) (8#10) (Fin x)) (Fin (-(2#10))))
                 (Fin ((8#10) - -(2#10))) = Fin q /\
            q == Qmin (Qmax x (-(2#10))) (8#10) + (2#10) /\ 0 <= q /\ q <= 1.
Proof.
  set (c := Qmin (Qmax x (-(2#10))) (8#10)).
  assert (Hlo : -(2#10) <= c).
  { unfold c. apply Q.min_glb; [apply Q.le_max_r | lra]. }
  assert (Hhi : c <= 8#10) by (unfold c; apply Q.le_min_r).
  change (fclip (-(2#10)) (8#10) (Fin x)) with (Fin c).
  unfold fsub, fneg, fadd, fdiv. cbv beta iota.
  change (Qeq_bool ((8#10) - -(2#10)) 0) with false. cbv beta iota.
  eexists. split; [reflexivity |].
  assert (E : (c + - - (2#10)) / ((8#10) - - (2#10)) == c + (2#10)) by field.
  rewrite E. repeat split; lra.
Qed.

(** X5: [_png_from_ndvi] hands the renderer an array of the index's shape
    in which a NaN sample stays NaN and every other sample becomes a finite
    value in [0, 1]: a finite value is clipped to [-0.2, 0.8] and shifted
    by 0.2, +inf becomes 1 and -inf becomes 0. *)
Theorem png_from_ndvi_unit_range be nd :
  exists arr, _png_from_ndvi be nd = render_png be arr /\
    nrows arr = nrows nd /\ ncols arr = ncols nd /\
    forall i j,
      (mget nd i j = NaN -> mget arr i j = NaN) /\
      (forall x, mget nd i j = Fin x -> exists q, mget arr i j = Fin q /\
         q == Qmin (Qmax x (-(2#10))) (8#10) + (2#10) /\ 0 <= q /\ q <= 1) /\
      (mget nd i j = PInf -> exists q, mget arr i j = Fin q /\ q == 1) /\
      (mget nd i j = NInf -> exists q, mget arr i j = Fin q /\ q == 0).
Proof.
  eexists. split; [reflexivity |]. simpl. repeat split.
  - intros H. rewrite H. reflexivity.
  - intros x H. rewrite H. apply png_pixel_fin.
  - intros H. rewrite H. simpl. eexists. split; [reflexivity |].
    field.
  - intros H. rewrite H. simpl. eexists. split; [reflexivity |].
    field.
Qed.

(** ** Request handling in the endpoints *)

Lemma bind_nil_inr {A B} (x : A) (k : A -> M B) : bind ([], inr x) k = k x.
Proof. unfold bind. destruct (k x); reflexivity. Qed.

Lemma bind_log_prefix {A B} (m : M A) (k : A -> M B) :
  exists l', fst (bind m k) = fst m ++ l'.
Proof.
  destruct m as [l [ex | x]]; simpl.
  - exists []. rewrite app_nil_r. reflexivity.
  - destruct (k x) as [l' r]. exists l'. reflexivity.
Qed.

Lemma bbox_float_log be b k : exists r, bbox_float be b k = ([], r).
Proof.
  unfold bbox_float, lift, bind.
  destruct (py_getitem b k); simpl; eauto.
Qed.

Ltac step_float be b k :=
  let r := fresh "r" in let Hr := fresh "Hr" in
  destruct (bbox_float_log be b k) as [r Hr]; rewrite Hr;
  destruct r as [?ex | ?v]; [left; eexists; split; reflexivity |];
  rewrite !bind_nil_inr; cbv beta.

(** both endpoints either fail before any remote call, or validate and
    parse the body and continue with the catalogue search *)
Lemma endpoints_decompose be body :
  (exists ex, ndvi be body = ([], inl ex) /\ ndvi_download be body = ([], inl ex)) \/
  exists b start end_ w s e n,
    py_get body "bbox" = inr b /\ py_get body "startDate" = inr start /\
    py_get body "endDate" = inr end_ /\
    negb (truthy b) || negb (truthy start) || negb (truthy end_) = false /\
    bbox_float be b "west" = ([], inr w) /\ bbox_float be b "south" = ([], inr s) /\
    bbox_float be b "east" = ([], inr e) /\ bbox_float be b "north" = ([], inr n) /\
    ndvi be body =
      (it <- _search_best_item be (w, s, e, n) start end_ 20 ;;
       match it with
       | None => raise (HTTPException 404)
       | Some it =>
           r <- _read_bands_ndvi be it (w, s, e, n) None ;;
           let '(nd, transform, crs_wkt) := r in
           ret (RPng (_png_from_ndvi be nd))
       end) /\
    ndvi_download be body =
      (it <- _search_best_item be (w, s, e, n) start end_ 20 ;;
       match it with
       | None => raise (HTTPException 404)
       | Some it =>
           r <- _read_bands_ndvi be it (w, s, e, n) None ;;
           let '(nd, transform, crs_wkt) := r in
           ret (RTiff (_save_geotiff be nd transform crs_wkt) start end_)
       end).
Proof.
  unfold ndvi, ndvi_download, lift.
  destruct (py_get body "bbox") as [ex | b] eqn:Hb; [left; eexists; split; reflexivity |].
  rewrite !bind_nil_inr; cbv beta.
  destruct (py_get body "startDate") as [ex | start] eqn:Hs; [left; eexists; split; reflexivity |].
  rewrite !bind_nil_inr; cbv beta.
  destruct (py_get body "endDate") as [ex | end_] eqn:He; [left; eexists; split; reflexivity |].
  rewrite !bind_nil_inr; cbv beta.
  destruct (negb (truthy b) || negb (truthy start) || negb (truthy end_)) eqn:Hg;
    [left; eexists; split; reflexivity |].
  step_float be b "west"%string. step_float be b "south"%string.
  step_float be b "east"%string. step_float be b "north"%string.
  right. do 7 eexists. repeat split; eassumption || reflexivity.
Qed.

(** X6: a body whose [bbox], [startDate] or [endDate] is missing or falsy
    (None, an empty string, an empty object, zero, ...) is refused by both
    endpoints with 400, before any remote call. *)
Theorem endpoints_reject_incomplete_body be body b start end_ :
  py_get body "bbox" = inr b -> py_get body "startDate" = inr start ->
  py_get body "endDate" = inr end_ ->
  truthy b = false \/ truthy start = false \/ truthy end_ = false ->
  ndvi be body = ([], inl (HTTPException 400)) /\
  ndvi_download be body = ([], inl (HTTPException 400)).
Proof.
  intros Hb Hs He Hf.
  unfold ndvi, ndvi_download, lift. rewrite Hb, Hs, He, !bind_nil_inr. cbv beta.
  destruct Hf as [H | [H | H]]; rewrite H;
    rewrite ?orb_true_r; split; reflexivity.
Qed.

Lemma endpoints_reject_incomplete_body_witness :
  let body := JObj [("bbox"%string, JObj [])] in
  ndvi be_cx body = ([], inl (HTTPException 400)) /\
  ndvi_download be_cx body = ([], inl (HTTPException 400)).
Proof.
  intros body.
  apply (endpoints_reject_incomplete_body be_cx body (JObj []) JNull JNull);
    try reflexivity.
  left. reflexivity.
Defined.

(** X7: a JSON body that is not an object (a list, a string, a number,
    null) has no [.get]: both endpoints fail with [AttributeError], which
    FastAPI answers with 500, before any remote call. *)
Theorem endpoints_non_object_body be body :
  (forall kv, body <> JObj kv) ->
  ndvi be body = ([], inl AttributeError) /\
  ndvi_download be body = ([], inl AttributeError) /\
  http_status (snd (ndvi be body)) = 500%Z.
Proof.
  intros H. destruct body as [| | | | | kv];
    try (exfalso; apply (H kv); reflexivity); repeat split.
Qed.

Lemma endpoints_non_object_body_witness :
  ndvi be_cx (JArr []) = ([], inl AttributeError) /\
  ndvi_download be_cx (JArr []) = ([], inl AttributeError) /\
  http_status (snd (ndvi be_cx (JArr []))) = 500%Z.
Proof.
  apply endpoints_non_object_body. intros kv. discriminate.
Defined.

Lemma pick_log_head be bb dt lim :
  exists t, fst (pick be bb dt lim) = EvSearch bb dt lim :: t.
Proof.
  unfold pick.
  match goal with |- context [fst (bind ?m ?k)] =>
    destruct (bind_log_prefix m k) as [l' ->] end.
  exists l'. reflexivity.
Qed.

Lemma search_log_head be bb start end_ cf :
  exists t, fst (_search_best_item be bb start end_ cf) = EvSearch bb (start, end_) cf :: t.
Proof.
  unfold _search_best_item.
  match goal with |- context [fst (bind ?m ?k)] =>
    destruct (bind_log_prefix m k) as [l' ->] end.
  destruct (pick_log_head be bb (start, end_) cf) as [t ->].
  eexists. reflexivity.
Qed.

(** X8: every remote call of the endpoints comes after validation: if an
    endpoint's log of remote calls is non-empty, the body was an object
    whose [bbox], [startDate] and [endDate] are all truthy, the four
    coordinates parsed as floats, and the first call is the catalogue
    search over exactly those coordinates with the 20% cloud limit. *)
Theorem endpoints_search_first be body ev rest :
  fst (ndvi be body) = ev :: rest \/ fst (ndvi_download be body) = ev :: rest ->
  exists b start end_ w s e n,
    py_get body "bbox" = inr b /\ py_get body "startDate" = inr start /\
    py_get body "endDate" = inr end_ /\
    truthy b = true /\ truthy start = true /\ truthy end_ = true /\
    snd (bbox_float be b "west") = inr w /\ snd (bbox_float be b "south") = inr s /\
    snd (bbox_float be b "east") = inr e /\ snd (bbox_float be b "north") = inr n /\
    ev = EvSearch (w, s, e, n) (start, end_) 20.
Proof.
  intros Hl.
  destruct (endpoints_decompose be body)
    as [[ex [E1 E2]] | (b & start & end_ & w & s & e & n & Hb & Hs & He & Hg &
                        Hw & Hso & Hea & Hno & E1 & E2)].
  - rewrite E1, E2 in Hl. destruct Hl as [Hl | Hl]; discriminate.
  - apply orb_false_iff in Hg as [Hg Hg3]. apply orb_false_iff in Hg as [Hg1 Hg2].
    apply negb_false_iff in Hg1, Hg2, Hg3.
    exists b, start, end_, w, s, e, n.
    rewrite Hw, Hso, Hea, Hno. repeat split; try assumption.
    destruct (search_log_head be (w, s, e, n) start end_ 20) as [t Ht].
    rewrite E1, E2 in Hl.
    destruct Hl as [Hl | Hl];
      match type of Hl with fst (bind ?m ?k) = _ =>
        destruct (bind_log_prefix m k) as [l' Hl']; rewrite Hl', Ht in Hl end;
      injection Hl as <- _; reflexivity.
Qed.

Lemma endpoints_search_first_witness :
  let body := mk_body 1 0 2 1 "2024-01-01" "2024-03-01" in
  fst (ndvi be_three body) =
    [EvSearch (1, 0, 2, 1) (JStr "2024-01-01", JStr "2024-03-01") 20] /\
  exists b start end_ w s e n,
    py_get body "bbox" = inr b /\ py_get body "startDate" = inr start /\
    py_get body "endDate" = inr end_ /\
    truthy b = true /\ truthy start = true /\ truthy end_ = true /\
    snd (bbox_float be_three b "west") = inr w /\ snd (bbox_float be_three b "south") = inr s /\
    snd (bbox_float be_three b "east") = inr e /\ snd (bbox_float be_three b "north") = inr n /\
    EvSearch (1, 0, 2, 1) (JStr "2024-01-01", JStr "2024-03-01") 20 =
      EvSearch (w, s, e, n) (start, end_) 20.
Proof.
  intros body. split; [vm_compute; reflexivity |].
  apply (endpoints_search_first be_three body _ []). left. vm_compute. reflexivity.
Defined.

Lemma search_none_log be bb start end_ cf :
  catalog_search be bb (start, end_) cf = inr [] ->
  catalog_search be bb (start, end_) relaxed_cloud = inr [] ->
  _search_best_item be bb start end_ cf =
    ([EvSearch bb (start, end_) cf; EvSearch bb (start, end_) relaxed_cloud], inr None).
Proof.
  intros H1 H2. unfold _search_best_item, pick, do_search, tell, lift.
  cbn -[catalog_search relaxed_cloud]. rewrite H1. cbn -[catalog_search relaxed_cloud].
  rewrite H2. reflexivity.
Qed.

(** X9: for a well-formed body with non-empty dates, when the catalogue
    finds no scene under either cloud limit, both endpoints make exactly
    the two searches (20%, then 60%) and answer 404. *)
Theorem endpoints_not_found be w s e n start end_ :
  start <> ""%string -> end_ <> ""%string ->
  catalog_search be (w, s, e, n) (JStr start, JStr end_) 20 = inr [] ->
  catalog_search be (w, s, e, n) (JStr start, JStr end_) relaxed_cloud = inr [] ->
  ndvi be (mk_body w s e n start end_) =
    ([EvSearch (w, s, e, n) (JStr start, JStr end_) 20;
      EvSearch (w, s, e, n) (JStr start, JStr end_) relaxed_cloud],
     inl (HTTPException 404)) /\
  ndvi_download be (mk_body w s e n start end_) =
    ([EvSearch (w, s, e, n) (JStr start, JStr end_) 20;
      EvSearch (w, s, e, n) (JStr start, JStr end_) relaxed_cloud],
     inl (HTTPException 404)).
Proof.
  intros Hs He H1 H2.
  apply String.eqb_neq in Hs, He.
  unfold ndvi, ndvi_download, mk_body, lift.
  cbn -[_search_best_item _read_bands_ndvi].
  rewrite Hs, He, (search_none_log _ _ _ _ _ H1 H2). split; reflexivity.
Qed.

Lemma endpoints_not_found_witness :
  ndvi be_empty (mk_body 1 0 2 1 "2024-01-01" "2024-03-01") =
    ([EvSearch (1, 0, 2, 1) (JStr "2024-01-01", JStr "2024-03-01") 20;
      EvSearch (1, 0, 2, 1) (JStr "2024-01-01", JStr "2024-03-01") relaxed_cloud],
     inl (HTTPException 404)) /\
  ndvi_download be_empty (mk_body 1 0 2 1 "2024-01-01" "2024-03-01") =
    ([EvSearch (1, 0, 2, 1) (JStr "2024-01-01", JStr "2024-03-01") 20;
      EvSearch (1, 0, 2, 1) (JStr "2024-01-01", JStr "2024-03-01") relaxed_cloud],
     inl (HTTPException 404)).
Proof.
  apply endpoints_not_found; try discriminate; reflexivity.
Defined.





(** ** Band reading and window geometry *)

(** X11: when the item lacks the B04 or the B08 asset, [_read_bands_ndvi]
    raises [KeyError] before opening any raster. *)
Theorem read_bands_missing_asset be it bb o :
  dict_lookup (assets it) "B04" = None \/ dict_lookup (assets it) "B08" = None ->
  _read_bands_ndvi be it bb o = ([], inl KeyError).
Proof.
  destruct bb as [[[west south] east] north].
  unfold _read_bands_ndvi, asset_href. intros [H | H]; rewrite H; [reflexivity |].
  destruct (dict_lookup (assets it) "B04"); reflexivity.
Qed.

Lemma read_bands_missing_asset_witness :
  _read_bands_ndvi be_cx item_clear bb_cx None = ([], inl KeyError).
Proof.
  apply read_bands_missing_asset. left. reflexivity.
Defined.














(** [from_bounds] on a north-up grid refuses reversed bounds *)
Lemma from_bounds_north_up_reversed T l b r t :
  sb T == 0 -> sd T == 0 -> 0 < sa T -> se T < 0 -> r < l \/ t < b ->
  from_bounds l b r t T = inl WindowError.
Proof.
  intros Hb Hd Ha He Hrev.
  assert (Ha0 : ~ sa T == 0) by (intros Z; lra).
  assert (He0 : ~ se T == 0) by (intros Z; lra).
  unfold from_bounds, py_div.
  replace (Qeq_bool (sa T) 0) with false
    by (symmetry; apply not_true_iff_false; rewrite Qeq_bool_iff; exact Ha0).
  destruct (qlt ((r - l) / sa T) 0) eqn:Q1; [reflexivity |].
  apply qlt_false in Q1.
  assert (Hlr : l <= r).
  { destruct (Qlt_le_dec r l) as [Hlt | Hle]; [| exact Hle].
    exfalso. apply (Qlt_not_le ((r - l) / sa T) 0); [| exact Q1].
    apply Qlt_shift_div_r; lra. }
  replace (Qeq_bool (se T) 0) with false
    by (symmetry; apply not_true_iff_false; rewrite Qeq_bool_iff; exact He0).
  replace (qlt ((b - t) / se T) 0) with true; [reflexivity |].
  symmetry. apply qlt_true.
  setoid_replace ((b - t) / se T) with ((t - b) / - se T) by (field; exact He0).
  apply Qlt_shift_div_r; lra.
Qed.



(** X14: on a north-up grid, bounds with [right < left] or [top < bottom]
    make [from_bounds] raise [WindowError]. *)
Theorem from_bounds_north_up_rejects_reversed T l b r t :
  sb T == 0 -> sd T == 0 -> 0 < sa T -> se T < 0 -> r < l \/ t < b ->
  from_bounds l b r t T = inl WindowError.
Proof.
  intros Hb Hd Ha He Hrev.
  destruct Hrev as [Hrev | Hrev];
    apply from_bounds_north_up_reversed; auto.
Qed.

Lemma from_bounds_north_up_rejects_reversed_witness :
  from_bounds 3 0 1 2 grid_cx = inl WindowError.
Proof.
  apply from_bounds_north_up_rejects_reversed; vm_compute; try reflexivity.
  left. reflexivity.
Defined.



(** ** Masked samples in the index computation *)

Lemma compute_ndvi_at b4 b8 out i j :
  nrows b4 = nrows b8 -> ncols b4 = ncols b8 ->
  (i < nrows b4)%nat -> (j < ncols b4)%nat ->
  compute_ndvi b4 b8 = inr out ->
  let s4 := ma_itruediv 10000 (mget b4 i j) in
  let s8 := ma_itruediv 10000 (mget b8 i j) in
  mget out i j = np_where_nan (ma_eq_scalar 0 (ma_add s8 s4))
                              (ma_div (ma_sub s8 s4) (ma_add s8 s4)).
Proof.
  intros Hr Hc Hi Hj Hout.
  unfold compute_ndvi in Hout.
  set (s4 := mat_map (ma_itruediv 10000) b4) in Hout.
  set (s8 := mat_map (ma_itruediv 10000) b8) in Hout.
  destruct (bcast2_same_shape ma_add s8 s4) as (den & Ed & Rd & Cd & Gd);
    [simpl; congruence | simpl; congruence |].
  rewrite Ed in Hout.
  destruct (bcast2_same_shape ma_sub s8 s4) as (num & En & Rn & Cn & Gn);
    [simpl; congruence | simpl; congruence |].
  rewrite En in Hout.
  destruct (bcast2_same_shape ma_div num den) as (qq & Eq & Rq & Cq & Gq);
    [congruence | congruence |].
  rewrite Eq in Hout.
  destruct (bcast2_same_shape np_where_nan (mat_map (ma_eq_scalar 0) den) qq)
    as (o & Eo & Ro & Co & Go); [simpl; congruence | simpl; congruence |].
  rewrite Eo in Hout. injection Hout as <-.
  assert (Hi8 : (i < nrows s8)%nat) by (simpl; congruence).
  assert (Hj8 : (j < ncols s8)%nat) by (simpl; congruence).
  assert (Hin : (i < nrows num)%nat) by congruence.
  assert (Hjn : (j < ncols num)%nat) by congruence.
  rewrite (Go i j) by (simpl; congruence). simpl.
  rewrite (Gq i j Hin Hjn), (Gd i j Hi8 Hj8), (Gn i j Hi8 Hj8).
  reflexivity.
Qed.

(** X16: on two bands of the same shape, a sample that is masked (nodata)
    in either band never becomes NaN: with the red sample masked and the
    near-infrared sample valid with raw value [n], the output is the
    near-infrared reflectance [n / 10000]; with the near-infrared sample
    masked and stored value [n], the output is [n] itself, unscaled. *)
Theorem compute_ndvi_masked_sample b4 b8 out i j n :
  nrows b4 = nrows b8 -> ncols b4 = ncols b8 ->
  (i < nrows b4)%nat -> (j < ncols b4)%nat ->
  compute_ndvi b4 b8 = inr out ->
  (mmask (mget b4 i j) = true -> mget b8 i j = mkS (Fin n) false ->
     exists q, mget out i j = Fin q /\ q == n / 10000) /\
  (mget b8 i j = mkS (Fin n) true ->
     exists q, mget out i j = Fin q /\ q == n).
Proof.
  intros Hr Hc Hi Hj Hout.
  pose proof (compute_ndvi_at b4 b8 out i j Hr Hc Hi Hj Hout) as P. simpl in P.
  split.
  - intros H4 H8. rewrite P, H8.
    destruct (mget b4 i j) as [d4 m4]. simpl in H4. subst m4.
    unfold np_where_nan, ma_eq_scalar, ma_div, ma_add, ma_sub, ma_binop, ma_itruediv.
    simpl. eexists. split; [reflexivity |]. field.
  - intros H8. rewrite P, H8.
    destruct (mget b4 i j) as [d4 m4].
    unfold np_where_nan, ma_eq_scalar, ma_div, ma_add, ma_sub, ma_binop, ma_itruediv.
    simpl. eexists. split; [reflexivity |]. field.
Qed.

Lemma compute_ndvi_masked_sample_witness :
  exists out, compute_ndvi red_nodata_px nir_valid_px = inr out /\
  ((mmask (mget red_nodata_px 0 0) = true -> mget nir_valid_px 0 0 = mkS (Fin 3000) false ->
     exists q, mget out 0 0 = Fin q /\ q == 3000 / 10000) /\
   (mget nir_valid_px 0 0 = mkS (Fin 3000) true ->
     exists q, mget out 0 0 = Fin q /\ q == 3000)).
Proof.
  eexists. split.
  - cbv. reflexivity.
  - apply (compute_ndvi_masked_sample red_nodata_px nir_valid_px); try reflexivity;
      simpl; lia.
Defined.

(** ** The catalogue search log *)

Lemma pick_log be bb dt lim : fst (pick be bb dt lim) = [EvSearch bb dt lim].
Proof.
  unfold pick, do_search, tell, lift. cbn -[catalog_search sort_by_key].
  destruct (catalog_search be bb dt lim) as [ex | [| i0 l0]]; cbn -[sort_by_key];
    try reflexivity.
  destruct (sort_by_key (i0 :: l0)); reflexivity.
Qed.

(** X17: [_search_best_item] makes one catalogue search with the first
    cloud limit, and a second one with the 60% limit only when the first
    returned an empty list; it never makes more than two. *)
Theorem search_log_shape be bb start end_ cf :
  fst (_search_best_item be bb start end_ cf) = [EvSearch bb (start, end_) cf] \/
  (fst (_search_best_item be bb start end_ cf) =
     [EvSearch bb (start, end_) cf; EvSearch bb (start, end_) relaxed_cloud] /\
   catalog_search be bb (start, end_) cf = inr []).
Proof.
  unfold _search_best_item.
  destruct (pick be bb (start, end_) cf) as [l1 r1] eqn:E1.
  assert (L1 : l1 = [EvSearch bb (start, end_) cf]).
  { rewrite <- (pick_log be bb (start, end_) cf), E1. reflexivity. }
  subst l1.
  destruct r1 as [ex | [it |]]; cbn -[pick]; [left; reflexivity | left; reflexivity |].
  destruct (pick be bb (start, end_) relaxed_cloud) as [l2 r2] eqn:E2.
  assert (L2 : l2 = [EvSearch bb (start, end_) relaxed_cloud]).
  { rewrite <- (pick_log be bb (start, end_) relaxed_cloud), E2. reflexivity. }
  subst l2. right. split; [reflexivity |].
  unfold pick, do_search, tell, lift in E1. cbn -[catalog_search sort_by_key] in E1.
  destruct (catalog_search be bb (start, end_) cf) as [ex | [| i0 l0]];
    cbn -[sort_by_key] in E1; [discriminate | reflexivity |].
  destruct (sort_by_key (i0 :: l0)); discriminate.
Qed.

(** ** Rendering order *)

(** X18: the PNG rescaling preserves order: of two finite NDVI samples
    [x <= y], the rescaled value of [x] is at most that of [y]. *)
Theorem png_from_ndvi_monotone be nd :
  exists arr, _png_from_ndvi be nd = render_png be arr /\
    forall i j i' j' x y,
      mget nd i j = Fin x -> mget nd i' j' = Fin y -> x <= y ->
      exists qx qy, mget arr i j = Fin qx /\ mget arr i' j' = Fin qy /\ qx <= qy.
Proof.
  eexists. split; [reflexivity |].
  intros i j i' j' x y Hx Hy Hxy. simpl. rewrite Hx, Hy.
  destruct (png_pixel_fin x) as (qx & Ex & Qx & _).
  destruct (png_pixel_fin y) as (qy & Ey & Qy & _).
  exists qx, qy. rewrite Ex, Ey. split; [reflexivity |]. split; [reflexivity |].
  rewrite Qx, Qy. apply Qplus_le_compat; [| apply Qle_refl].
  apply Q.min_le_compat_r. apply Q.max_le_compat_r. exact Hxy.
Qed.
